(** * simple-server.py: a development file server with cache-defeating headers

    A shallow embedding of [simple-server.py].  The script has two parts:
    the request handler class [MyHTTPRequestHandler], which overrides the
    [end_headers] hook of the file-serving handler it inherits from, and
    [main], which changes directory, binds a [TCPServer], tries to open a
    browser and serves until interrupted.

    The inherited file-serving facility and the operating-system calls are
    not part of the script.  The facility is modelled as a header buffer that
    is flushed to the connection, its methods dispatching on the class of
    [self]; the operating system is an explicit environment that decides the
    outcome of every external call. *)

From Stdlib Require Import Ascii String ZArith Lia.
From stdpp Require Import base strings gmap list pretty.

Open Scope string_scope.

(** ** Platform functions

    Library functions whose results depend on the host platform or on the
    clock.  They are parameters of the whole development: nothing is assumed
    about them. *)

Record platform := Platform {
  (** [os.path.abspath], as a function of the current directory and a path *)
  os_path_abspath : string → string → string;
  (** [os.path.dirname] *)
  os_path_dirname : string → string;
  (** the handler's [translate_path]: served directory and request path to a
      file-system path *)
  translate_path : string → string → string;
  (** the handler's [guess_type] *)
  guess_type : string → string;
  (** the handler's [version_string()] *)
  version_string : string;
  (** the handler's [date_time_string()] *)
  date_time_string : string;
  (** the handler's [date_time_string(mtime)] of a file *)
  last_modified : string → string;
  (** the HTML page [send_error] builds for a status code and message *)
  error_page : Z → string → string;
  (** [str.split()]: the words of a request line *)
  str_split : string → list string;
  (** the [%r] rendering of a string in an error message *)
  repr : string → string;
  (** the numbers of a version word [HTTP/<major>.<minor>] as
      [parse_request] reads them, if it has that form *)
  parse_version : string → option (Z * Z);
  (** what [os.getcwd()] returns for a working directory set to the given
      path: its physical path, symbolic links resolved *)
  physical_path : string → string;
}.

(** ** The request handler *)

(** One request as the handler sees it after its request line, one with an
    HTTP/1.x version, is parsed. *)
Record request := Request {
  req_command : string;
  req_path : string;
}.

(** The state of one handler object: the directory it serves from, the
    version, command and path of the request, the pending header lines
    ([_headers_buffer]) and the chunks written to the connection so far
    ([wfile]). *)
Record handler := Handler {
  directory : string;
  request_version : string;
  command : string;
  path : string;
  headers_buffer : list string;
  wfile : list string;
}.

Definition set_headers_buffer (b : list string) (h : handler) : handler :=
  Handler (directory h) (request_version h) (command h) (path h) b (wfile h).

Definition wfile_write (data : string) (h : handler) : handler :=
  Handler (directory h) (request_version h) (command h) (path h)
          (headers_buffer h) (wfile h ++ [data]).

Definition set_request_version (v : string) (h : handler) : handler :=
  Handler (directory h) v (command h) (path h) (headers_buffer h) (wfile h).

Definition set_command (c : string) (h : handler) : handler :=
  Handler (directory h) (request_version h) c (path h) (headers_buffer h)
          (wfile h).

Definition set_path (p : string) (h : handler) : handler :=
  Handler (directory h) (request_version h) (command h) p (headers_buffer h)
          (wfile h).

Definition CRLF : string := String "013"%char (String "010"%char EmptyString).

(** The methods a subclass of the handler may override.  The script
    overrides [end_headers] only. *)
Record handler_class := HandlerClass {
  end_headers : handler → handler;
}.

Definition header_line (keyword value : string) : string :=
  keyword +:+ ": " +:+ value +:+ CRLF.

Definition status_line (code : Z) (message : string) : string :=
  "HTTP/1.0 " +:+ pretty code +:+ " " +:+ message +:+ CRLF.

(** [default_request_version]: the version a handler has until the request
    line has given it another. *)
Definition default_request_version : string := "HTTP/0.9".

Section Handler.
Variable P : platform.

(** Modelled from the spec: the base file-serving facility (the standard
    library's request handler classes, which are not among the repository's
    sources).  Its header methods keep the pending header lines in a buffer;
    ending the headers appends the blank line and writes the buffer to the
    connection in one piece.  Its default behaviour, to which the spec leaves
    malformed requests, is that of the standard library: while the request
    version is the default [HTTP/0.9] the header methods write nothing. *)
Definition send_header (keyword value : string) (h : handler) : handler :=
  if bool_decide (request_version h = "HTTP/0.9") then h
  else set_headers_buffer (headers_buffer h ++ [header_line keyword value]) h.

Definition send_response_only (code : Z) (message : string) (h : handler)
  : handler :=
  if bool_decide (request_version h = "HTTP/0.9") then h
  else set_headers_buffer (headers_buffer h ++ [status_line code message]) h.

Definition send_response (code : Z) (message : string) (h : handler)
  : handler :=
  send_header "Date" (date_time_string P)
    (send_header "Server" (version_string P)
       (send_response_only code message h)).

Definition flush_headers (h : handler) : handler :=
  set_headers_buffer [] (wfile_write (String.concat EmptyString (headers_buffer h)) h).

Definition base_end_headers (h : handler) : handler :=
  if bool_decide (request_version h = "HTTP/0.9") then h
  else flush_headers (set_headers_buffer (headers_buffer h ++ [CRLF]) h).

(** [class MyHTTPRequestHandler(http.server.SimpleHTTPRequestHandler)]:
    [end_headers] sends the three headers, then calls [super().end_headers()]. *)
Definition MyHTTPRequestHandler_end_headers (h : handler) : handler :=
  let h := send_header "Cache-Control" "no-cache, no-store, must-revalidate" h in
  let h := send_header "Pragma" "no-cache" h in
  let h := send_header "Expires" "0" h in
  base_end_headers h.

Definition SimpleHTTPRequestHandler : handler_class :=
  HandlerClass base_end_headers.

Definition MyHTTPRequestHandler : handler_class :=
  HandlerClass MyHTTPRequestHandler_end_headers.

(** Modelled from the spec: the base facility's responses (the standard
    library's [send_error], [send_head], [do_GET], [do_HEAD] and method
    dispatch, not among the repository's sources).  A request path is mapped
    to a file under the served directory; an existing file is answered with
    status 200 and its contents, a missing one with the not-found status 404,
    a method the handler does not have with 501.  Every method ends the
    headers through [self.end_headers()], so a subclass's override applies. *)
Definition send_error (self : handler_class) (code : Z) (message : string)
    (h : handler) : handler :=
  let body := error_page P code message in
  let h := send_response code message h in
  let h := send_header "Connection" "close" h in
  let h := send_header "Content-Type" "text/html;charset=utf-8" h in
  let h := send_header "Content-Length" (pretty (String.length body)) h in
  let h := end_headers self h in
  if bool_decide (command h = "HEAD") then h else wfile_write body h.

Definition send_head (self : handler_class) (fs : gmap string string)
    (h : handler) : option string * handler :=
  let p := translate_path P (directory h) (path h) in
  match fs !! p with
  | None => (None, send_error self 404 "File not found" h)
  | Some data =>
      let h := send_response 200 "OK" h in
      let h := send_header "Content-type" (guess_type P p) h in
      let h := send_header "Content-Length" (pretty (String.length data)) h in
      let h := send_header "Last-Modified" (last_modified P p) h in
      (Some data, end_headers self h)
  end.

Definition do_GET (self : handler_class) (fs : gmap string string)
    (h : handler) : handler :=
  match send_head self fs h with
  | (Some data, h) => wfile_write data h
  | (None, h) => h
  end.

Definition do_HEAD (self : handler_class) (fs : gmap string string)
    (h : handler) : handler :=
  snd (send_head self fs h).

Definition handle_one_request (self : handler_class)
    (fs : gmap string string) (h : handler) : handler :=
  if bool_decide (command h = "GET") then do_GET self fs h
  else if bool_decide (command h = "HEAD") then do_HEAD self fs h
  else send_error self 501
         ("Unsupported method ('" +:+ command h +:+ "')") h.

(** A fresh handler for one request with an HTTP/1.x request line, serving
    from [dir]; the result is what it wrote to the connection. *)
Definition new_handler (dir : string) (r : request) : handler :=
  Handler dir "HTTP/1.0" (req_command r) (req_path r) [] [].

Definition respond (self : handler_class) (dir : string)
    (fs : gmap string string) (r : request) : list string :=
  wfile (handle_one_request self fs (new_handler dir r)).

(** Modelled from the spec: the base facility's reading of the request line
    (the standard library's [parse_request] and the head of its
    [handle_one_request], not among the repository's sources; the header
    lines of the request are left out).  The version is the default
    [HTTP/0.9] until a line of three or more words has given a well-formed
    one below 2.0; a line of two words is an HTTP/0.9 request and must be a
    [GET]; every other line is answered with an error, sent with the version
    the handler has at that point. *)
Fixpoint rstrip_crlf (s : string) : string :=
  match s with
  | EmptyString => EmptyString
  | String c s =>
      match rstrip_crlf s with
      | EmptyString =>
          if bool_decide (c = "013"%char ∨ c = "010"%char) then EmptyString
          else String c EmptyString
      | rest => String c rest
      end
  end.

Fixpoint after_slash (s : string) : string :=
  match s with
  | EmptyString => EmptyString
  | String c s => if bool_decide (c = "/"%char) then s else after_slash s
  end.

Fixpoint lstrip_slashes (s : string) : string :=
  match s with
  | EmptyString => EmptyString
  | String c s' => if bool_decide (c = "/"%char) then lstrip_slashes s' else s
  end.

(** [if self.path.startswith('//'): self.path = '/' + self.path.lstrip('/')] *)
Definition reduce_slashes (p : string) : string :=
  match p with
  | String "/" (String "/" _) => "/" +:+ lstrip_slashes p
  | _ => p
  end.

Definition parse_request (self : handler_class) (raw_requestline : string)
    (h : handler) : bool * handler :=
  let h := set_request_version default_request_version
             (set_command EmptyString h) in
  let requestline := rstrip_crlf raw_requestline in
  let words := str_split P requestline in
  if bool_decide (length words = 0%nat) then (false, h)
  else
    let checked : handler + handler :=
      if bool_decide (3 ≤ length words)%nat then
        let version := default EmptyString (last words) in
        match parse_version P version with
        | None =>
            inl (send_error self 400
                   ("Bad request version (" +:+ repr P version +:+ ")") h)
        | Some (major, minor) =>
            if bool_decide (2 < major ∨ major = 2 ∧ 0 ≤ minor)%Z
            then inl (send_error self 505
                        ("Invalid HTTP version (" +:+
                         after_slash version +:+ ")") h)
            else inr (set_request_version version h)
        end
      else inr h in
    match checked with
    | inl h => (false, h)
    | inr h =>
        if bool_decide (2 ≤ length words ≤ 3)%nat then
          let command := default EmptyString (words !! 0%nat) in
          let path := default EmptyString (words !! 1%nat) in
          if bool_decide (length words = 2%nat) &&
             negb (bool_decide (command = "GET"))
          then (false,
                send_error self 400
                  ("Bad HTTP/0.9 request type (" +:+ repr P command +:+ ")") h)
          else (true, set_path (reduce_slashes path) (set_command command h))
        else (false,
              send_error self 400
                ("Bad request syntax (" +:+ repr P requestline +:+ ")") h)
    end.

(** One connection: the handler reads the request line, parses it and, when
    that went through, dispatches on the command. *)
Definition handle_request_line (self : handler_class) (dir : string)
    (fs : gmap string string) (raw_requestline : string) : handler :=
  let h := Handler dir default_request_version EmptyString EmptyString [] [] in
  if bool_decide (65536 < Z.of_nat (String.length raw_requestline))%Z then
    send_error self 414 "Request-URI Too Long"
      (set_request_version EmptyString h)
  else
    match parse_request self raw_requestline h with
    | (true, h) => handle_one_request self fs h
    | (false, h) => h
    end.

End Handler.

(** ** The process and its environment *)

(** [PORT = 8000] *)
Definition PORT : Z := 8000.

(** Exceptions, as far as [main] tells them apart: the clause
    [except KeyboardInterrupt] matches the first only, a bare [except:]
    matches all of them. *)
Inductive exn :=
| KeyboardInterrupt
| SystemExit
| OSError (errno : Z)
| Exception (name : string).

Definition EADDRINUSE : Z := 98.

(** The external calls of [main].  A [print] is named by its source line. *)
Inductive site :=
| at_chdir
| at_getcwd
| at_print (line : nat)
| at_TCPServer
| at_webbrowser_open
| at_serve_forever.

#[global] Instance exn_eq_dec : EqDecision exn.
Proof. solve_decision. Defined.
#[global] Instance site_eq_dec : EqDecision site.
Proof. solve_decision. Defined.
#[global] Instance request_eq_dec : EqDecision request.
Proof. solve_decision. Defined.

(** Everything outside the script that a run depends on.  [fault s] is the
    exception raised inside the call at [s], if any: a failure of the call
    itself or a signal delivered while it runs.  With no fault at
    [at_serve_forever] the serving loop never returns. *)
Record environment := Environment {
  script_file : string;
  invocation_dir : string;
  argv : list string;
  environ : gmap string string;
  files : gmap string string;
  ports_in_use : gset Z;
  fault : site → option exn;
  browser_opened : bool;
  requests : list request;
}.

Definition with_fault (s : site) (o : option exn) (E : environment)
  : environment :=
  Environment (script_file E) (invocation_dir E) (argv E) (environ E)
    (files E) (ports_in_use E)
    (λ s', if bool_decide (s' = s) then o else fault E s')
    (browser_opened E) (requests E).

Definition with_browser_opened (b : bool) (E : environment) : environment :=
  Environment (script_file E) (invocation_dir E) (argv E) (environ E)
    (files E) (ports_in_use E) (fault E) b (requests E).

(** What a run does, in order. *)
Inductive event :=
| Chdir (dir : string)
| Print (text : string)
| Bind (host : string) (port : Z)
| BrowserOpen (url : string)
| ServeForever
| Respond (r : request) (wire : list string)
| ServerClose.

#[global] Instance event_eq_dec : EqDecision event.
Proof. solve_decision. Defined.

(** The life cycle of the listening socket. *)
Inductive socket_state := Unbound | Listening | Serving | Closed.

#[global] Instance socket_state_eq_dec : EqDecision socket_state.
Proof. solve_decision. Defined.

Record process := Process {
  cwd : string;
  sock : socket_state;
  trace : list event;
}.

Definition log (e : event) (p : process) : process :=
  Process (cwd p) (sock p) (trace p ++ [e]).

Definition set_cwd (d : string) (p : process) : process :=
  Process d (sock p) (trace p).

Definition set_sock (s : socket_state) (p : process) : process :=
  Process (cwd p) s (trace p).

(** A statement returns, raises, or never returns. *)
Inductive result (A : Type) :=
| Returned (a : A)
| Raised (e : exn)
| Blocked.
Arguments Returned {A} a.
Arguments Raised {A} e.
Arguments Blocked {A}.

Definition M (A : Type) : Type := process → result A * process.

Definition ret {A} (a : A) : M A := λ p, (Returned a, p).

Definition bind {A B} (m : M A) (k : A → M B) : M B := λ p,
  match m p with
  | (Returned a, p) => k a p
  | (Raised e, p) => (Raised e, p)
  | (Blocked, p) => (Blocked, p)
  end.

Notation "x <- m ;; k" := (bind m (λ x, k))
  (at level 100, m at next level, right associativity).
Notation "m ;; k" := (bind m (λ _, k))
  (at level 100, right associativity).

(** [try: body / except <matching>: handler] *)
Definition try_except {A} (body : M A) (matching : exn → bool)
    (handler : M A) : M A := λ p,
  match body p with
  | (Raised e, p') => if matching e then handler p' else (Raised e, p')
  | r => r
  end.

Definition except_all (e : exn) : bool := true.

Definition except_KeyboardInterrupt (e : exn) : bool :=
  match e with KeyboardInterrupt => true | _ => false end.

(** [with ctor as x: body]: [exit x] runs when the body returns or raises. *)
Definition with_as {A B} (ctor : M A) (exit : A → M unit) (body : A → M B)
  : M B := λ p,
  match ctor p with
  | (Returned x, p) =>
      match body x p with
      | (Blocked, p) => (Blocked, p)
      | (r, p) =>
          match exit x p with
          | (Returned _, p) => (r, p)
          | (Raised e, p) => (Raised e, p)
          | (Blocked, p) => (Blocked, p)
          end
      end
  | (Raised e, p) => (Raised e, p)
  | (Blocked, p) => (Blocked, p)
  end.

(** The server object: its address and the handler class it instantiates
    for each request. *)
Record server := Server {
  server_address : string * Z;
  RequestHandlerClass : handler_class;
}.

Section Main.
Variable P : platform.
Variable E : environment.

(** *** The external calls *)

(** [os.path.dirname(os.path.abspath(__file__))] *)
Definition script_dir : string :=
  os_path_dirname P (os_path_abspath P (invocation_dir E) (script_file E)).

Definition os_path_dirname_abspath (file : string) : M string := λ p,
  (Returned (os_path_dirname P (os_path_abspath P (cwd p) file)), p).

Definition os_chdir (d : string) : M unit := λ p,
  match fault E at_chdir with
  | Some e => (Raised e, p)
  | None => (Returned tt, log (Chdir d) (set_cwd d p))
  end.

Definition os_getcwd : M string := λ p,
  match fault E at_getcwd with
  | Some e => (Raised e, p)
  | None => (Returned (physical_path P (cwd p)), p)
  end.

Definition print (line : nat) (text : string) : M unit := λ p,
  match fault E (at_print line) with
  | Some e => (Raised e, p)
  | None => (Returned tt, log (Print text) p)
  end.

(** [socketserver.TCPServer(address, cls)]: the constructor binds the
    socket; a port held by another process makes the bind raise. *)
Definition TCPServer (address : string * Z) (cls : handler_class)
  : M server := λ p,
  let p := log (Bind (fst address) (snd address)) p in
  match fault E at_TCPServer with
  | Some e => (Raised e, p)
  | None =>
      if bool_decide (snd address ∈ ports_in_use E)
      then (Raised (OSError EADDRINUSE), p)
      else (Returned (Server address cls), set_sock Listening p)
  end.

(** The server's [__exit__]: [server_close()]. *)
Definition server_close (httpd : server) : M unit := λ p,
  (Returned tt, log ServerClose (set_sock Closed p)).

Definition webbrowser_open (url : string) : M bool := λ p,
  let p := log (BrowserOpen url) p in
  match fault E at_webbrowser_open with
  | Some e => (Raised e, p)
  | None => (Returned (browser_opened E), p)
  end.

(** [httpd.serve_forever()]: each arriving request gets a fresh handler of
    the server's class, which serves from the current directory (named here
    by the path it was changed to); the loop ends only by an exception. *)
Definition handle_request (httpd : server) (p : process) (r : request)
  : process :=
  log (Respond r (respond P (RequestHandlerClass httpd) (cwd p) (files E) r)) p.

Definition serve_forever (httpd : server) : M unit := λ p,
  let p := set_sock Serving (log ServeForever p) in
  let p := foldl (handle_request httpd) p (requests E) in
  match fault E at_serve_forever with
  | Some e => (Raised e, p)
  | None => (Blocked, p)
  end.

(** *** [main] *)

Definition localhost : string := "http://localhost:" +:+ pretty PORT +:+ "/".

Definition stopped_message : string :=
  String "010"%char "Server stopped.".

Definition main : M unit :=
  d <- os_path_dirname_abspath (script_file E) ;;
  os_chdir d ;;
  print 26 ("Starting HTTP server on port " +:+ pretty PORT) ;;
  c <- os_getcwd ;;
  print 27 ("Serving files from: " +:+ c) ;;
  with_as (TCPServer ("", PORT) (MyHTTPRequestHandler)) server_close
    (λ httpd,
       print 30 ("Server running at " +:+ localhost) ;;
       print 31 ("Open " +:+ localhost +:+ "index.html to view the application") ;;
       print 32 ("Open " +:+ localhost +:+ "test.html for simple test") ;;
       print 33 ("Open " +:+ localhost +:+ "debug.html for debugging") ;;
       print 34 "Press Ctrl+C to stop the server" ;;
       try_except
         (webbrowser_open (localhost +:+ "index.html") ;; ret tt)
         except_all
         (ret tt) ;;
       try_except
         (serve_forever httpd)
         except_KeyboardInterrupt
         (print 45 stopped_message)).

(** A run of the script: [main()] in a fresh process started in the
    invocation directory. *)
Definition start : process := Process (invocation_dir E) Unbound [].

Definition run : result unit * process := main start.

Definition outcome : result unit := fst run.
Definition final : process := snd run.

End Main.

(** The calls made before the browser is launched, in program order. *)
Definition startup_sites : list site :=
  [at_chdir; at_print 26; at_getcwd; at_print 27; at_TCPServer;
   at_print 30; at_print 31; at_print 32; at_print 33; at_print 34].

Fixpoint bind_attempts (t : list event) : nat :=
  match t with
  | [] => 0
  | Bind _ _ :: t => S (bind_attempts t)
  | _ :: t => bind_attempts t
  end.

(** The exception the call at [s] raises, if any: a fault, or the bind on a
    port that is in use. *)
Definition raises (E : environment) (s : site) : option exn :=
  match fault E s with
  | Some e => Some e
  | None =>
      match s with
      | at_TCPServer =>
          if bool_decide (PORT ∈ ports_in_use E)
          then Some (OSError EADDRINUSE)
          else None
      | _ => None
      end
  end.

(** The first of the calls [sites] that raises, with its exception. *)
Fixpoint first_raise (E : environment) (sites : list site)
  : option (site * exn) :=
  match sites with
  | [] => None
  | s :: sites =>
      match raises E s with
      | Some e => Some (s, e)
      | None => first_raise E sites
      end
  end.

(** The startup went through: no call before the browser launch raised. *)
Definition startup_ok (E : environment) : Prop :=
  first_raise E startup_sites = None.

(** The bind of the listening socket fails. *)
Definition bind_fails (E : environment) : Prop :=
  raises E at_TCPServer ≠ None.

(** Two environments that differ at most in how the browser launch goes
    (and in what the script never reads: command line and process
    environment). *)
Definition same_but_browser (E1 E2 : environment) : Prop :=
  script_file E1 = script_file E2 ∧
  invocation_dir E1 = invocation_dir E2 ∧
  files E1 = files E2 ∧
  ports_in_use E1 = ports_in_use E2 ∧
  requests E1 = requests E2 ∧
  ∀ s, s ≠ at_webbrowser_open → fault E1 s = fault E2 s.

(** ** A concrete platform and environment, for examples *)

Fixpoint dirname_go (acc cur : string) (s : string) : string :=
  match s with
  | EmptyString => acc
  | String c s =>
      if bool_decide (c = "/"%char)
      then dirname_go (acc +:+ cur) (String c EmptyString) s
      else dirname_go acc (cur +:+ String c EmptyString) s
  end.

Definition posix_dirname (s : string) : string :=
  dirname_go EmptyString EmptyString s.

Definition posix_abspath (dir file : string) : string :=
  match file with
  | String "/" _ => file
  | _ => dir +:+ "/" +:+ file
  end.

Fixpoint split_spaces_go (cur : string) (s : string) : list string :=
  match s with
  | EmptyString => if bool_decide (cur = EmptyString) then [] else [cur]
  | String c s =>
      if bool_decide (c = " "%char)
      then (if bool_decide (cur = EmptyString) then [] else [cur]) ++
           split_spaces_go EmptyString s
      else split_spaces_go (cur +:+ String c EmptyString) s
  end.

Definition split_spaces (s : string) : list string :=
  split_spaces_go EmptyString s.

Definition posix_parse_version (version : string) : option (Z * Z) :=
  if bool_decide (version = "HTTP/0.9") then Some (0, 9)%Z
  else if bool_decide (version = "HTTP/1.0") then Some (1, 0)%Z
  else if bool_decide (version = "HTTP/1.1") then Some (1, 1)%Z
  else if bool_decide (version = "HTTP/2.0") then Some (2, 0)%Z
  else None.

Definition posix : platform := {|
  os_path_abspath := posix_abspath;
  os_path_dirname := posix_dirname;
  translate_path := λ dir path, dir +:+ path;
  guess_type := λ _, "text/html";
  version_string := "SimpleHTTP/0.6 Python/3.11.2";
  date_time_string := "Tue, 03 Nov 2026 09:00:00 GMT";
  last_modified := λ _, "Mon, 02 Nov 2026 09:00:00 GMT";
  error_page := λ code message, "<h1>" +:+ pretty code +:+ " " +:+ message +:+ "</h1>";
  str_split := split_spaces;
  repr := λ s, "'" +:+ s +:+ "'";
  parse_version := posix_parse_version;
  physical_path := λ dir, dir;
|}.

Definition no_fault : site → option exn := λ _, None.

(** The script at [/srv/app/simple-server.py], started from [/home/dev],
    with one file to serve and two requests arriving. *)
Definition example_env : environment := {|
  script_file := "/srv/app/simple-server.py";
  invocation_dir := "/home/dev";
  argv := ["simple-server.py"; "--port"; "9000"];
  environ := {[ "PORT" := "9000" ]};
  files := {[ "/srv/app/index.html" := "<html>hello</html>" ]};
  ports_in_use := ∅;
  fault := no_fault;
  browser_opened := true;
  requests := [Request "GET" "/index.html"; Request "GET" "/missing.html"];
|}.

(** ** The handler's responses *)

(** The three header lines of the override, as they go on the wire. *)
Definition cache_header_lines : list string :=
  [header_line "Cache-Control" "no-cache, no-store, must-revalidate";
   header_line "Pragma" "no-cache";
   header_line "Expires" "0"].

(** A header block with the given lines, closed by the blank line. *)
Definition head_block (lines : list string) : string :=
  String.concat EmptyString (lines ++ [CRLF]).

(** The lines the base facility sends with every status. *)
Definition response_lines (P : platform) (code : Z) (message : string)
  : list string :=
  [status_line code message;
   header_line "Server" (version_string P);
   header_line "Date" (date_time_string P)].

Definition ok_lines (P : platform) (p data : string) : list string :=
  response_lines P 200 "OK" ++
  [header_line "Content-type" (guess_type P p);
   header_line "Content-Length" (pretty (String.length data));
   header_line "Last-Modified" (last_modified P p)].

Definition error_lines (P : platform) (code : Z) (message : string)
  : list string :=
  response_lines P code message ++
  [header_line "Connection" "close";
   header_line "Content-Type" "text/html;charset=utf-8";
   header_line "Content-Length"
     (pretty (String.length (error_page P code message)))].

(** The three headers, byte for byte. *)
Definition cache_headers_wire : string :=
  "Cache-Control: no-cache, no-store, must-revalidate" +:+ CRLF +:+
  "Pragma: no-cache" +:+ CRLF +:+
  "Expires: 0" +:+ CRLF.

(** What a class adds to the header lines of the base facility, when the
    request has a version that gets a header block. *)
Definition added_lines (self : handler_class) : list string → Prop := λ extra,
  ∀ h, request_version h ≠ "HTTP/0.9" →
       end_headers self h =
       Handler (directory h) (request_version h) (command h) (path h) []
               (wfile h ++ [head_block (headers_buffer h ++ extra)]).

(** A class whose [end_headers] writes nothing for a request without a
    version. *)
Definition silent (self : handler_class) : Prop :=
  ∀ h, request_version h = "HTTP/0.9" → end_headers self h = h.

(** The handler after one response: no header block and the body alone when
    the version is [HTTP/0.9], else the header block of [lines], the lines
    [extra] of the class and the blank line, then the body. *)
Definition response_state (dir version command path : string)
    (lines body extra : list string) : handler :=
  Handler dir version command path []
    (if bool_decide (version = "HTTP/0.9") then body
     else head_block (lines ++ extra) :: body).

(** A response as the specification words it: its first chunk is a header
    block that ends with the three cache-defeating headers. *)
Definition carries_cache_headers (wire : list string) : Prop :=
  ∃ lines body,
    wire =
      (String.concat EmptyString lines +:+ cache_headers_wire +:+ CRLF)
      :: body.

(** The responses of the serving loop, one per request. *)
Definition responses (P : platform) (cls : handler_class) (dir : string)
    (fs : gmap string string) (rs : list request) : list event :=
  (λ r, Respond r (respond P cls dir fs r)) <$> rs.

(** The reading of the interrupt handler under which every
    [KeyboardInterrupt] raised before the serving loop, the browser launch
    included, ends the run uncaught and without the shutdown message. *)
Definition interrupt_before_serving_uncaught (P : platform)
    (E : environment) : Prop :=
  ∀ s,
    first_raise E (startup_sites ++ [at_webbrowser_open]) =
      Some (s, KeyboardInterrupt) →
    outcome P E = Raised KeyboardInterrupt ∧
    Print stopped_message ∉ trace (final P E).

(** ** Environments of particular runs *)

(** Port 8000 is held by another process. *)
Definition busy_port_env : environment :=
  Environment (script_file example_env) (invocation_dir example_env)
    (argv example_env) (environ example_env) (files example_env)
    {[ PORT ]} no_fault true (requests example_env).

(** Ctrl+C arrives while the server is serving. *)
Definition interrupted_serving_env : environment :=
  with_fault at_serve_forever (Some KeyboardInterrupt) example_env.

(** Ctrl+C arrives while the banner is being printed. *)
Definition interrupted_banner_env : environment :=
  with_fault (at_print 30) (Some KeyboardInterrupt) example_env.

(** Ctrl+C arrives inside [webbrowser.open]. *)
Definition interrupted_browser_env : environment :=
  with_fault at_webbrowser_open (Some KeyboardInterrupt) example_env.

(** No browser can be launched: [webbrowser.open] raises. *)
Definition no_browser_env : environment :=
  with_browser_opened false
    (with_fault at_webbrowser_open (Some (Exception "webbrowser.Error"))
       example_env).

(** ** What a run shows *)

(** The texts printed in a trace, in order. *)
Fixpoint printed (t : list event) : list string :=
  match t with
  | [] => []
  | Print text :: t => text :: printed t
  | _ :: t => printed t
  end.

Fixpoint browser_attempts (t : list event) : nat :=
  match t with
  | [] => 0
  | BrowserOpen _ :: t => S (browser_attempts t)
  | _ :: t => browser_attempts t
  end.

(** The seven lines [main] prints before it launches the browser. *)
Definition banner (P : platform) (E : environment) : list string :=
  ["Starting HTTP server on port 8000";
   "Serving files from: " +:+ physical_path P (script_dir P E);
   "Server running at http://localhost:8000/";
   "Open http://localhost:8000/index.html to view the application";
   "Open http://localhost:8000/test.html for simple test";
   "Open http://localhost:8000/debug.html for debugging";
   "Press Ctrl+C to stop the server"].

(** What can be seen of a run from outside: how it ended, the state of the
    socket and what it did. *)
Definition observable (x : result unit * process)
  : result unit * socket_state * list event :=
  (fst x, sock (snd x), trace (snd x)).

(** Two environments that differ at most in the directory the process was
    started in, the entry file being the same. *)
Definition same_but_invocation_dir (P : platform) (E1 E2 : environment)
  : Prop :=
  os_path_abspath P (invocation_dir E1) (script_file E1) =
    os_path_abspath P (invocation_dir E2) (script_file E2) ∧
  files E1 = files E2 ∧
  ports_in_use E1 = ports_in_use E2 ∧
  requests E1 = requests E2 ∧
  browser_opened E1 = browser_opened E2 ∧
  ∀ s, fault E1 s = fault E2 s.

(** The serving loop dies of something other than Ctrl+C. *)
Definition failing_serve_env : environment :=
  with_fault at_serve_forever (Some (OSError 24)) example_env.

(** The script's directory cannot be entered. *)
Definition missing_dir_env : environment :=
  with_fault at_chdir (Some (OSError 2)) example_env.

(** The same script, started from another directory. *)
Definition other_dir_env : environment :=
  Environment (script_file example_env) "/tmp"
    (argv example_env) (environ example_env) (files example_env)
    (ports_in_use example_env) (fault example_env)
    (browser_opened example_env) (requests example_env).

(** ** Properties of the handler *)

Lemma cache_header_lines_wire :
  String.concat EmptyString cache_header_lines =
  "Cache-Control: no-cache, no-store, must-revalidate" +:+ CRLF +:+
  "Pragma: no-cache" +:+ CRLF +:+
  "Expires: 0" +:+ CRLF.
Proof. reflexivity. Qed.

(** The header methods on a handler given by its fields: with a version
    other than [HTTP/0.9] they buffer and flush, with [HTTP/0.9] they do
    nothing. *)
Lemma send_response_only_on code message d v c p b w :
  v ≠ "HTTP/0.9" →
  send_response_only code message (Handler d v c p b w) =
  Handler d v c p (b ++ [status_line code message]) w.
Proof.
  intros Hv. unfold send_response_only. cbn [request_version].
  by rewrite bool_decide_eq_false_2.
Qed.

Lemma send_header_on keyword value d v c p b w :
  v ≠ "HTTP/0.9" →
  send_header keyword value (Handler d v c p b w) =
  Handler d v c p (b ++ [header_line keyword value]) w.
Proof.
  intros Hv. unfold send_header. cbn [request_version].
  by rewrite bool_decide_eq_false_2.
Qed.

Lemma base_end_headers_on d v c p b w :
  v ≠ "HTTP/0.9" →
  base_end_headers (Handler d v c p b w) =
  Handler d v c p [] (w ++ [head_block b]).
Proof.
  intros Hv. unfold base_end_headers. cbn [request_version].
  by rewrite bool_decide_eq_false_2.
Qed.

Lemma send_response_only_off code message d v c p b w :
  v = "HTTP/0.9" →
  send_response_only code message (Handler d v c p b w) = Handler d v c p b w.
Proof.
  intros Hv. unfold send_response_only. cbn [request_version].
  by rewrite bool_decide_eq_true_2.
Qed.

Lemma send_header_off keyword value d v c p b w :
  v = "HTTP/0.9" →
  send_header keyword value (Handler d v c p b w) = Handler d v c p b w.
Proof.
  intros Hv. unfold send_header. cbn [request_version].
  by rewrite bool_decide_eq_true_2.
Qed.

Lemma base_end_headers_off d v c p b w :
  v = "HTTP/0.9" →
  base_end_headers (Handler d v c p b w) = Handler d v c p b w.
Proof.
  intros Hv. unfold base_end_headers. cbn [request_version].
  by rewrite bool_decide_eq_true_2.
Qed.

(** Runs the header methods of the base facility on a handler whose
    version is known, by [Hv], to be or not to be [HTTP/0.9]. *)
Ltac header_methods Hv :=
  unfold send_response;
  repeat first
    [ rewrite send_response_only_on by exact Hv
    | rewrite send_header_on by exact Hv
    | rewrite base_end_headers_on by exact Hv
    | rewrite send_response_only_off by exact Hv
    | rewrite send_header_off by exact Hv
    | rewrite base_end_headers_off by exact Hv ].

(** With a version other than [HTTP/0.9] the header methods buffer and
    flush; with [HTTP/0.9] they do nothing. *)
Lemma send_header_spec keyword value h :
  request_version h ≠ "HTTP/0.9" →
  send_header keyword value h =
  set_headers_buffer (headers_buffer h ++ [header_line keyword value]) h.
Proof. intros Hv. unfold send_header. by rewrite bool_decide_eq_false_2. Qed.

Lemma send_header_silent keyword value h :
  request_version h = "HTTP/0.9" → send_header keyword value h = h.
Proof. intros Hv. unfold send_header. by rewrite bool_decide_eq_true_2. Qed.

Lemma send_response_spec P code message h :
  request_version h ≠ "HTTP/0.9" →
  send_response P code message h =
  set_headers_buffer (headers_buffer h ++ response_lines P code message) h.
Proof.
  intros Hv. destruct h as [d v c p b w]. cbn in Hv.
  header_methods Hv. unfold response_lines, set_headers_buffer.
  cbn [directory request_version command path headers_buffer wfile].
  by rewrite <- !app_assoc.
Qed.

Lemma send_response_silent P code message h :
  request_version h = "HTTP/0.9" → send_response P code message h = h.
Proof.
  intros Hv. destruct h as [d v c p b w]. cbn in Hv. by header_methods Hv.
Qed.

Lemma base_end_headers_spec (h : handler) :
  request_version h ≠ "HTTP/0.9" →
  base_end_headers h =
  Handler (directory h) (request_version h) (command h) (path h) []
          (wfile h ++ [head_block (headers_buffer h)]).
Proof.
  intros Hv. unfold base_end_headers. by rewrite bool_decide_eq_false_2.
Qed.

Lemma base_end_headers_silent (h : handler) :
  request_version h = "HTTP/0.9" → base_end_headers h = h.
Proof.
  intros Hv. unfold base_end_headers. by rewrite bool_decide_eq_true_2.
Qed.

Lemma MyHTTPRequestHandler_end_headers_spec (h : handler) :
  request_version h ≠ "HTTP/0.9" →
  MyHTTPRequestHandler_end_headers h =
  Handler (directory h) (request_version h) (command h) (path h) []
          (wfile h ++ [head_block (headers_buffer h ++ cache_header_lines)]).
Proof.
  intros Hv. destruct h as [d v c p b w]. cbn in Hv.
  unfold MyHTTPRequestHandler_end_headers. header_methods Hv.
  unfold head_block, cache_header_lines. by rewrite <- !app_assoc.
Qed.

Lemma MyHTTPRequestHandler_end_headers_silent (h : handler) :
  request_version h = "HTTP/0.9" → MyHTTPRequestHandler_end_headers h = h.
Proof.
  intros Hv. destruct h as [d v c p b w]. cbn in Hv.
  unfold MyHTTPRequestHandler_end_headers. by header_methods Hv.
Qed.

Lemma SimpleHTTPRequestHandler_adds : added_lines SimpleHTTPRequestHandler [].
Proof.
  intros h Hv. cbn. by rewrite base_end_headers_spec, app_nil_r.
Qed.

Lemma MyHTTPRequestHandler_adds :
  added_lines MyHTTPRequestHandler cache_header_lines.
Proof. intros h Hv. by apply MyHTTPRequestHandler_end_headers_spec. Qed.

Lemma SimpleHTTPRequestHandler_silent : silent SimpleHTTPRequestHandler.
Proof. intros h Hv. by apply base_end_headers_silent. Qed.

Lemma MyHTTPRequestHandler_silent : silent MyHTTPRequestHandler.
Proof. intros h Hv. by apply MyHTTPRequestHandler_end_headers_silent. Qed.

Lemma send_error_spec P self extra code message h :
  added_lines self extra →
  request_version h ≠ "HTTP/0.9" →
  send_error P self code message h =
  Handler (directory h) (request_version h) (command h) (path h) []
    (wfile h ++
       [head_block ((headers_buffer h ++ error_lines P code message) ++ extra)] ++
       (if bool_decide (command h = "HEAD") then []
        else [error_page P code message])).
Proof.
  intros Hself Hv. destruct h as [d v c p b w]. cbn in Hv.
  unfold send_error. header_methods Hv. rewrite Hself by exact Hv.
  unfold error_lines, response_lines.
  cbn [directory request_version command path headers_buffer wfile].
  case_bool_decide; unfold wfile_write;
    cbn [directory request_version command path headers_buffer wfile];
    rewrite <- ?app_assoc; cbn [app]; by rewrite ?app_nil_r.
Qed.

Lemma send_error_silent P self code message h :
  silent self →
  request_version h = "HTTP/0.9" →
  send_error P self code message h =
  if bool_decide (command h = "HEAD") then h
  else wfile_write (error_page P code message) h.
Proof.
  intros Hself Hv. destruct h as [d v c p b w]. cbn in Hv.
  unfold send_error. header_methods Hv. by rewrite Hself.
Qed.

Lemma append_empty_r (s : string) : s +:+ EmptyString = s.
Proof.
  induction s as [|c s IH]; [reflexivity|].
  change (String c (s +:+ EmptyString) = String c s). by rewrite IH.
Qed.

Lemma append_assoc (s1 s2 s3 : string) :
  (s1 +:+ s2) +:+ s3 = s1 +:+ (s2 +:+ s3).
Proof.
  induction s1 as [|c s1 IH]; [reflexivity|].
  change (String c ((s1 +:+ s2) +:+ s3) = String c (s1 +:+ (s2 +:+ s3))).
  by rewrite IH.
Qed.

Lemma concat_empty_cons (x : string) (l : list string) :
  String.concat EmptyString (x :: l) = x +:+ String.concat EmptyString l.
Proof.
  destruct l as [|y l]; [|reflexivity].
  symmetry. apply append_empty_r.
Qed.

Lemma concat_empty_app (l1 l2 : list string) :
  String.concat EmptyString (l1 ++ l2) =
  String.concat EmptyString l1 +:+ String.concat EmptyString l2.
Proof.
  induction l1 as [|x l1 IH]; [reflexivity|].
  change ((x :: l1) ++ l2)%list with (x :: (l1 ++ l2))%list.
  by rewrite !concat_empty_cons, IH, append_assoc.
Qed.

Lemma head_block_wire (lines extra : list string) :
  head_block (lines ++ extra) =
  String.concat EmptyString lines +:+ String.concat EmptyString extra +:+ CRLF.
Proof.
  unfold head_block. rewrite !concat_empty_app. cbn [String.concat].
  by rewrite append_assoc.
Qed.



Lemma head_block_base (lines : list string) :
  head_block (lines ++ []) = String.concat EmptyString lines +:+ CRLF.
Proof. by rewrite head_block_wire. Qed.

Lemma head_block_cache (lines : list string) :
  head_block (lines ++ cache_header_lines) =
  String.concat EmptyString lines +:+ cache_headers_wire +:+ CRLF.
Proof. by rewrite head_block_wire. Qed.

(** The response to [GET /index.html] as it goes on the wire. *)
Example respond_index_html :
  respond posix MyHTTPRequestHandler "/srv/app" (files example_env)
    (Request "GET" "/index.html") =
  ["HTTP/1.0 200 OK" +:+ CRLF +:+
   "Server: SimpleHTTP/0.6 Python/3.11.2" +:+ CRLF +:+
   "Date: Tue, 03 Nov 2026 09:00:00 GMT" +:+ CRLF +:+
   "Content-type: text/html" +:+ CRLF +:+
   "Content-Length: 18" +:+ CRLF +:+
   "Last-Modified: Mon, 02 Nov 2026 09:00:00 GMT" +:+ CRLF +:+
   "Cache-Control: no-cache, no-store, must-revalidate" +:+ CRLF +:+
   "Pragma: no-cache" +:+ CRLF +:+
   "Expires: 0" +:+ CRLF +:+
   CRLF;
   "<html>hello</html>"].
Proof. vm_compute. reflexivity. Qed.

(** A [HEAD] request gets the header block only. *)
Example respond_head_missing :
  respond posix MyHTTPRequestHandler "/srv/app" (files example_env)
    (Request "HEAD" "/missing.html") =
  [String.concat EmptyString (error_lines posix 404 "File not found") +:+
     cache_headers_wire +:+ CRLF].
Proof. vm_compute. reflexivity. Qed.

Lemma send_error_state P self extra code message dir v c p :
  added_lines self extra → silent self →
  send_error P self code message (Handler dir v c p [] []) =
  response_state dir v c p (error_lines P code message)
    (if bool_decide (c = "HEAD") then [] else [error_page P code message])
    extra.
Proof.
  intros Hadds Hsilent. unfold response_state.
  destruct (decide (v = "HTTP/0.9")) as [Hv|Hv].
  - rewrite (bool_decide_eq_true_2 _ Hv), send_error_silent by done.
    cbn [command]. by case_bool_decide.
  - rewrite (bool_decide_eq_false_2 _ Hv), (send_error_spec _ _ extra) by done.
    reflexivity.
Qed.

Lemma send_head_found_state P self extra fs dir v c p data :
  added_lines self extra → silent self →
  fs !! translate_path P dir p = Some data →
  send_head P self fs (Handler dir v c p [] []) =
  (Some data,
   response_state dir v c p (ok_lines P (translate_path P dir p) data) []
     extra).
Proof.
  intros Hadds Hsilent Hf. unfold send_head, response_state.
  cbn [directory path]. rewrite Hf.
  destruct (decide (v = "HTTP/0.9")) as [Hv|Hv].
  - rewrite (bool_decide_eq_true_2 _ Hv). header_methods Hv.
    by rewrite Hsilent.
  - rewrite (bool_decide_eq_false_2 _ Hv). header_methods Hv.
    by rewrite Hadds.
Qed.

Lemma response_state_write dir v c p lines extra data :
  wfile_write data (response_state dir v c p lines [] extra) =
  response_state dir v c p lines [data] extra.
Proof. unfold response_state, wfile_write. cbn. by case_bool_decide. Qed.

Lemma handle_one_request_state P fs dir v c p :
  ∃ lines body, ∀ self extra,
    added_lines self extra → silent self →
    handle_one_request P self fs (Handler dir v c p [] []) =
    response_state dir v c p lines body extra.
Proof.
  unfold handle_one_request, do_GET, do_HEAD. cbn [command].
  destruct (fs !! translate_path P dir p) as [data|] eqn:Hf;
    repeat case_bool_decide.
  - eexists _, _. intros self extra Hadds Hsilent.
    rewrite (send_head_found_state _ _ extra _ _ _ _ _ data) by done.
    apply response_state_write.
  - eexists _, _. intros self extra Hadds Hsilent.
    by rewrite (send_head_found_state _ _ extra _ _ _ _ _ data).
  - eexists _, _. intros self extra Hadds Hsilent.
    by apply send_error_state.
  - eexists _, _. intros self extra Hadds Hsilent.
    unfold send_head. cbn [directory path]. rewrite Hf.
    by apply send_error_state.
  - eexists _, _. intros self extra Hadds Hsilent.
    unfold send_head. cbn [directory path snd]. rewrite Hf.
    by apply send_error_state.
  - eexists _, _. intros self extra Hadds Hsilent.
    by apply send_error_state.
Qed.

(** Whatever the request line, the handler ends in the state of one
    response, or of none for an empty line, the same for every class up to
    the lines the class adds. *)
Lemma handle_request_line_state P dir fs raw :
  ∃ v c p lines body, ∀ self extra,
    added_lines self extra → silent self →
    handle_request_line P self dir fs raw =
    response_state dir v c p lines body extra.
Proof.
  unfold handle_request_line, parse_request.
  cbn [set_request_version set_command set_path directory request_version
       command path headers_buffer wfile].
  set (words := str_split P (rstrip_crlf raw)).
  case_bool_decide.
  { eexists _, _, _, _, _. intros self extra Hadds Hsilent.
    by apply send_error_state. }
  case_bool_decide.
  { exists "HTTP/0.9", EmptyString, EmptyString, [], [].
    intros self extra Hadds Hsilent. reflexivity. }
  destruct (bool_decide (3 ≤ length words)%nat);
    [destruct (parse_version P (default EmptyString (last words)))
       as [[major minor]|]; [case_bool_decide|]|].
  all: cbn [set_request_version set_command set_path directory request_version
            command path headers_buffer wfile].
  all: try (eexists _, _, _, _, _; intros self extra Hadds Hsilent;
            by apply send_error_state).
  all: case_bool_decide;
    [destruct (bool_decide (length words = 2%nat) &&
               negb (bool_decide (default EmptyString (words !! 0%nat) = "GET")))
    |].
  all: cbn [set_request_version set_command set_path directory request_version
            command path headers_buffer wfile].
  all: try (eexists _, _, _, _, _; intros self extra Hadds Hsilent;
            by apply send_error_state).
  all: unfold set_path, set_command, set_request_version.
  all: cbn [directory request_version command path headers_buffer wfile].
  all: match goal with
       | |- context [handle_one_request _ _ _ (Handler ?d ?v ?c ?p [] [])] =>
           destruct (handle_one_request_state P fs d v c p)
             as (lines & body & Hstate);
           exists v, c, p, lines, body; exact Hstate
       end.
Qed.

Lemma response_state_version dir v c p lines body extra :
  request_version (response_state dir v c p lines body extra) = v.
Proof. reflexivity. Qed.

Lemma length_append (s1 s2 : string) :
  String.length (s1 +:+ s2) = (String.length s1 + String.length s2)%nat.
Proof.
  induction s1 as [|c s1 IH]; [reflexivity|].
  change (S (String.length (s1 +:+ s2)) =
          S (String.length s1 + String.length s2)). by rewrite IH.
Qed.

(** A request line without a version gets the file and nothing else. *)
Example respond_versionless_request :
  wfile (handle_request_line posix MyHTTPRequestHandler "/srv/app"
           (files example_env) ("GET /index.html" +:+ CRLF)) =
  ["<html>hello</html>"].
Proof. vm_compute. reflexivity. Qed.

(** A request line with a version gets the header block first. *)
Example respond_versioned_request :
  wfile (handle_request_line posix MyHTTPRequestHandler "/srv/app"
           (files example_env) ("GET /index.html HTTP/1.1" +:+ CRLF)) =
  respond posix MyHTTPRequestHandler "/srv/app" (files example_env)
    (Request "GET" "/index.html").
Proof. vm_compute. reflexivity. Qed.

(** A malformed request line gets the error page and no status line. *)
Example respond_malformed_request :
  wfile (handle_request_line posix MyHTTPRequestHandler "/srv/app"
           (files example_env) ("GET /index.html FOO/1.1" +:+ CRLF)) =
  [error_page posix 400 "Bad request version ('FOO/1.1')"].
Proof. vm_compute. reflexivity. Qed.

(** C1, as the code has it: for a request whose version is not the default
    [HTTP/0.9], the script's [end_headers] puts the buffered base header
    lines on the wire followed by exactly
    [Cache-Control: no-cache, no-store, must-revalidate], [Pragma: no-cache]
    and [Expires: 0] and the blank line, and the response is the base
    facility's (same status and header lines, same body) with these three
    headers appended after the base's.  For a request line without a version
    or malformed before its version is read, the version stays [HTTP/0.9]:
    [end_headers] writes nothing and the response is the base facility's
    bare body, with no header block. *)
Theorem C1_cache_headers_after_base_headers (P : platform) :
  (∀ h : handler,
     request_version h ≠ "HTTP/0.9" →
     end_headers MyHTTPRequestHandler h =
     Handler (directory h) (request_version h) (command h) (path h) []
       (wfile h ++
        [String.concat EmptyString (headers_buffer h) +:+
         cache_headers_wire +:+ CRLF])) ∧
  (∀ h : handler,
     request_version h = "HTTP/0.9" →
     end_headers MyHTTPRequestHandler h = h) ∧
  (∀ (dir : string) (fs : gmap string string) (raw : string),
     ∃ version lines body,
       request_version
         (handle_request_line P MyHTTPRequestHandler dir fs raw) = version ∧
       if bool_decide (version = "HTTP/0.9") then
         wfile (handle_request_line P SimpleHTTPRequestHandler dir fs raw) =
           body ∧
         wfile (handle_request_line P MyHTTPRequestHandler dir fs raw) =
           body ∧
         headers_buffer
           (handle_request_line P MyHTTPRequestHandler dir fs raw) = []
       else
         wfile (handle_request_line P SimpleHTTPRequestHandler dir fs raw) =
           (String.concat EmptyString lines +:+ CRLF) :: body ∧
         wfile (handle_request_line P MyHTTPRequestHandler dir fs raw) =
           (String.concat EmptyString lines +:+ cache_headers_wire +:+ CRLF)
           :: body).
Proof.
  split; [|split].
  - intros h Hv. cbn [end_headers MyHTTPRequestHandler].
    by rewrite MyHTTPRequestHandler_end_headers_spec, head_block_cache.
  - intros h Hv. by apply MyHTTPRequestHandler_end_headers_silent.
  - intros dir fs raw.
    destruct (handle_request_line_state P dir fs raw)
      as (v & c & p & lines & body & Hstate).
    exists v, lines, body.
    rewrite (Hstate _ _ MyHTTPRequestHandler_adds MyHTTPRequestHandler_silent).
    rewrite (Hstate _ _ SimpleHTTPRequestHandler_adds
               SimpleHTTPRequestHandler_silent).
    split; [reflexivity|]. unfold response_state.
    case_bool_decide; cbn [wfile headers_buffer]; [done|].
    by rewrite head_block_base, head_block_cache.
Qed.

Lemma C1_cache_headers_after_base_headers_witness :
  end_headers MyHTTPRequestHandler
    (Handler "/srv/app" "HTTP/1.1" "GET" "/index.html"
       [status_line 200 "OK"] []) =
  Handler "/srv/app" "HTTP/1.1" "GET" "/index.html" []
    [status_line 200 "OK" +:+ cache_headers_wire +:+ CRLF].
Proof.
  apply (proj1 (C1_cache_headers_after_base_headers posix)
           (Handler "/srv/app" "HTTP/1.1" "GET" "/index.html"
              [status_line 200 "OK"] [])).
  discriminate.
Defined.

(** C1 as worded fails: the response to a request line without a version
    is the file alone; it has no header block and so none of the three
    headers. *)
Lemma C1_versionless_response_has_no_headers :
  wfile (handle_request_line posix MyHTTPRequestHandler "/srv/app"
           (files example_env) ("GET /index.html" +:+ CRLF)) =
    ["<html>hello</html>"] ∧
  ¬ carries_cache_headers
      (wfile (handle_request_line posix MyHTTPRequestHandler "/srv/app"
                (files example_env) ("GET /index.html" +:+ CRLF))).
Proof.
  assert (Hwire :
    wfile (handle_request_line posix MyHTTPRequestHandler "/srv/app"
             (files example_env) ("GET /index.html" +:+ CRLF)) =
    ["<html>hello</html>"]) by (vm_compute; reflexivity).
  split; [exact Hwire|]. rewrite Hwire.
  intros (lines & body & Heq). injection Heq as Hhead _.
  apply (f_equal String.length) in Hhead.
  assert (Hlen : String.length (cache_headers_wire +:+ CRLF) = 84%nat)
    by (vm_compute; reflexivity).
  rewrite length_append, Hlen in Hhead. simpl in Hhead. lia.
Qed.





(** ** Properties of runs of [main] *)

Lemma foldl_handle_request P E httpd rs p :
  foldl (handle_request P E httpd) p rs =
  Process (cwd p) (sock p)
    (trace p ++ responses P (RequestHandlerClass httpd) (cwd p) (files E) rs).
Proof.
  revert p. induction rs as [|r rs IH]; intros p.
  - cbn. rewrite app_nil_r. by destruct p.
  - cbn [foldl]. rewrite IH. unfold handle_request, log, responses.
    cbn [cwd sock trace fmap list_fmap]. by rewrite <- app_assoc.
Qed.

(** Case analysis of a run: one case per way the external calls of [main]
    can go, each with the outcome and final state it leads to. *)
Ltac unfold_main :=
  unfold run, main, start;
  cbv [bind ret with_as try_except os_path_dirname_abspath os_chdir os_getcwd
       print TCPServer server_close webbrowser_open serve_forever
       except_all except_KeyboardInterrupt].

Ltac simpl_process :=
  repeat first
    [ progress cbn [fst snd cwd sock trace log set_cwd set_sock
                    RequestHandlerClass server_address app]
    | rewrite foldl_handle_request
    | rewrite <- app_assoc ].

Ltac next_call :=
  match goal with
  | |- context [match fault ?E ?s with _ => _ end] =>
      let Hs := fresh "Hfault" in destruct (fault E s) as [?|] eqn:Hs
  | |- context [bool_decide (?x ∈ ports_in_use ?E)] =>
      let Hp := fresh "Hport" in
      destruct (bool_decide (x ∈ ports_in_use E)) eqn:Hp
  | |- context [match ?e with KeyboardInterrupt => _ | _ => _ end] =>
      is_var e; destruct e
  end.

Ltac run_cases P E :=
  let r := fresh "r" in
  let p := fresh "p" in
  let Hrun := fresh "Hrun" in
  unfold outcome, final;
  destruct (run P E) as [r p] eqn:Hrun; revert Hrun;
  unfold_main; cbn [fst snd]; repeat next_call; simpl_process;
  intros [= <- <-]; simpl_process.

Lemma bind_attempts_app (t1 t2 : list event) :
  bind_attempts (t1 ++ t2) = (bind_attempts t1 + bind_attempts t2)%nat.
Proof.
  induction t1 as [|e t1 IH]; [done|]. destruct e; cbn; by rewrite ?IH.
Qed.

Lemma bind_attempts_responses P cls dir fs rs :
  bind_attempts (responses P cls dir fs rs) = 0%nat.
Proof. induction rs as [|r rs IH]; [done|]. apply IH. Qed.

Lemma elem_of_responses P cls dir fs rs e :
  e ∈ responses P cls dir fs rs ↔
  ∃ r, r ∈ rs ∧ e = Respond r (respond P cls dir fs r).
Proof.
  unfold responses. rewrite list_elem_of_fmap.
  split; intros (r & ? & ?); by exists r.
Qed.

Lemma printed_app (t1 t2 : list event) :
  printed (t1 ++ t2) = (printed t1 ++ printed t2)%list.
Proof.
  induction t1 as [|e t1 IH]; [done|]. destruct e; cbn; by rewrite ?IH.
Qed.

Lemma printed_responses P cls dir fs rs :
  printed (responses P cls dir fs rs) = [].
Proof. induction rs as [|r rs IH]; [done|]. apply IH. Qed.

(** Membership in a trace that evaluation has laid out. *)
Ltac trace_mem :=
  repeat match goal with
  | H : _ ∈ (_ ++ _)%list |- _ => apply elem_of_app in H; destruct H as [H|H]
  | H : _ ∈ _ :: _ |- _ => apply elem_of_cons in H; destruct H as [H|H]
  | H : _ ∈ [] |- _ => by apply elem_of_nil in H
  | H : _ ∈ responses _ _ _ _ _ |- _ =>
      apply elem_of_responses in H; destruct H as (? & ? & H)
  | H : @eq event _ _ |- _ => first [discriminate H | simplify_eq H; intros; subst]
  end.

(** The undisturbed run: the banner, the browser launch, then serving
    without end. *)
Example run_example_env :
  outcome posix example_env = Blocked ∧
  sock (final posix example_env) = Serving ∧
  cwd (final posix example_env) = "/srv/app" ∧
  take 4 (trace (final posix example_env)) =
    [Chdir "/srv/app";
     Print "Starting HTTP server on port 8000";
     Print "Serving files from: /srv/app";
     Bind EmptyString 8000].
Proof. vm_compute. repeat split. Qed.

(** Ctrl+C while serving: the message is printed and the server closed. *)
Example run_interrupted_serving :
  outcome posix interrupted_serving_env = Returned tt ∧
  sock (final posix interrupted_serving_env) = Closed.
Proof. vm_compute. split; reflexivity. Qed.

(** Port in use: the run dies in the constructor. *)
Example run_busy_port :
  run posix busy_port_env =
  (Raised (OSError EADDRINUSE),
   Process "/srv/app" Unbound
     [Chdir "/srv/app";
      Print "Starting HTTP server on port 8000";
      Print "Serving files from: /srv/app";
      Bind EmptyString 8000]).
Proof. vm_compute. reflexivity. Qed.

(** C8: in every run, whatever the command line, the process environment
    and the files on disk, the only address a socket is ever bound to is
    port 8000 on the empty host (all interfaces); there is at most one bind,
    and a run that has a socket at all made it. *)
Theorem C8_fixed_port_all_interfaces (P : platform) (E : environment) :
  (∀ host port, Bind host port ∈ trace (final P E) →
     host = EmptyString ∧ port = 8000%Z) ∧
  (bind_attempts (trace (final P E)) ≤ 1)%nat ∧
  (sock (final P E) ≠ Unbound →
     Bind EmptyString 8000 ∈ trace (final P E)).
Proof.
  run_cases P E.
  all: split; [intros host port Hin; solve [trace_mem; done]|].
  all: split;
    [cbn [bind_attempts];
     rewrite ?bind_attempts_app, ?bind_attempts_responses; cbn; lia|].
  all: intros Hsock; try done.
  all: repeat first [apply list_elem_of_here | apply list_elem_of_further].
Qed.

(** Brings the hypothesis [H] about the first raising call down to the
    case at hand. *)
Ltac first_raise_in H :=
  unfold startup_ok, bind_fails in H;
  cbn [first_raise startup_sites] in H; unfold raises in H;
  repeat match goal with
  | Hf : fault _ _ = _ |- _ => rewrite Hf in H
  | Hp : bool_decide (_ ∈ ports_in_use _) = _ |- _ => rewrite Hp in H
  end;
  cbn [fst snd] in H.

(** C10: a run in which the bind of the listening socket fails never
    attempts to open the browser; any browser launch in a run comes after
    the bind on port 8000, which succeeded. *)
Theorem C10_browser_only_after_bind (P : platform) (E : environment) :
  (bind_fails E → ∀ url, BrowserOpen url ∉ trace (final P E)) ∧
  (∀ url, BrowserOpen url ∈ trace (final P E) →
     ¬ bind_fails E ∧
     ∃ before after,
       trace (final P E) = (before ++ BrowserOpen url :: after)%list ∧
       Bind EmptyString PORT ∈ before).
Proof.
  run_cases P E.
  all: split;
    [intros Hfails url Hin; first_raise_in Hfails;
     solve [trace_mem | by destruct Hfails]|].
  all: intros url Hin; split;
    [intros Hfails; first_raise_in Hfails;
     solve [trace_mem | by destruct Hfails]|].
  all: try solve [trace_mem].
  all: trace_mem.
  all: eexists [_; _; _; _; _; _; _; _; _], _; split; [reflexivity|].
  all: repeat first [apply list_elem_of_here | apply list_elem_of_further].
Qed.

Lemma port_in_use_decide (E : environment) :
  PORT ∈ ports_in_use E → bool_decide (PORT ∈ ports_in_use E) = true.
Proof. apply bool_decide_eq_true_2. Qed.

(** C4: when port 8000 is held by another process the run ends with an
    uncaught exception, the bind's own [OSError] when nothing raised
    before it, with nothing happening after the failed bind; there is one
    bind attempt at most, none on another port, the serving loop is never
    entered and the socket never gets to listen. *)
Theorem C4_port_in_use_is_fatal (P : platform) (E : environment) :
  PORT ∈ ports_in_use E →
  (∃ e, outcome P E = Raised e) ∧
  (first_raise E startup_sites = Some (at_TCPServer, OSError EADDRINUSE) →
     outcome P E = Raised (OSError EADDRINUSE) ∧
     last (trace (final P E)) = Some (Bind EmptyString PORT)) ∧
  (bind_attempts (trace (final P E)) ≤ 1)%nat ∧
  (∀ host port, Bind host port ∈ trace (final P E) → port = PORT) ∧
  (ServeForever ∉ trace (final P E)) ∧
  sock (final P E) = Unbound.
Proof.
  intros Hused. apply port_in_use_decide in Hused. revert Hused.
  run_cases P E; intros Hused; try discriminate Hused.
  all: split; [eexists; reflexivity|].
  all: split; [intros Hfirst; first_raise_in Hfirst; by simplify_eq|].
  all: split; [cbn [bind_attempts]; lia|].
  all: split; [intros host port Hin; solve [trace_mem; done]|].
  all: split; [intros Hin; solve [trace_mem]|done].
Qed.

(** C5: when the serving loop has been entered and is interrupted, the
    [KeyboardInterrupt] is caught: the shutdown message is printed (the
    print itself going through), the server is closed, and [main] returns
    normally. *)
Theorem C5_interrupt_while_serving (P : platform) (E : environment) :
  ServeForever ∈ trace (final P E) →
  fault E at_serve_forever = Some KeyboardInterrupt →
  fault E (at_print 45) = None →
  outcome P E = Returned tt ∧
  sock (final P E) = Closed ∧
  [Print stopped_message; ServerClose] `suffix_of` trace (final P E).
Proof.
  run_cases P E; intros Hin Hserve Hprint; try discriminate.
  all: try solve [trace_mem].
  all: split; [done|]; split; [done|].
  all: repeat apply suffix_cons_r; by apply suffix_app_r.
Qed.

(** The faults of [E1] at the calls other than the browser launch are those
    of [E2]. *)
Ltac same_faults Hfault :=
  rewrite ?(Hfault at_chdir), ?(Hfault at_getcwd), ?(Hfault (at_print 26)),
    ?(Hfault (at_print 27)), ?(Hfault (at_print 30)), ?(Hfault (at_print 31)),
    ?(Hfault (at_print 32)), ?(Hfault (at_print 33)), ?(Hfault (at_print 34)),
    ?(Hfault (at_print 45)), ?(Hfault at_TCPServer),
    ?(Hfault at_serve_forever) by done.

(** C6: however the browser launch goes, raising any exception or reporting
    failure, the run is the one it would have been otherwise: same outcome,
    same output, same socket life cycle, same responses. *)
Theorem C6_browser_failure_suppressed (P : platform) (E1 E2 : environment) :
  same_but_browser E1 E2 → run P E1 = run P E2.
Proof.
  intros (Hfile & Hdir & Hfiles & Hports & Hreqs & Hfault).
  unfold_main. rewrite ?Hfile, ?Hdir, ?Hports. same_faults Hfault.
  cbn [fst snd]. repeat next_call; simpl_process.
  all: by rewrite ?Hfiles, ?Hreqs.
Qed.

(** C7: the first thing a run does is change to the directory of its own
    entry file; in a run that gets to serve, that is the working directory
    from then on and every response is the handler's response for that
    directory, whatever the directory the process was started in. *)
Theorem C7_serves_from_script_directory (P : platform) (E : environment) :
  (∀ r wire, Respond r wire ∈ trace (final P E) →
     wire = respond P MyHTTPRequestHandler (script_dir P E) (files E) r) ∧
  (ServeForever ∈ trace (final P E) →
     cwd (final P E) = script_dir P E ∧
     ∃ rest,
       trace (final P E) = Chdir (script_dir P E) :: rest ∧
       ServeForever ∈ rest).
Proof.
  unfold script_dir. run_cases P E.
  all: split; [intros r wire Hin; solve [trace_mem; done]|].
  all: intros Hin; try solve [trace_mem].
  all: split; [done|].
  all: eexists; split; [reflexivity|].
  all: repeat first [apply list_elem_of_here | apply list_elem_of_further].
Qed.

Lemma fault_with_fault_ne s s' o E :
  s' ≠ s → fault (with_fault s o E) s' = fault E s'.
Proof. intros Hne. cbn. by rewrite bool_decide_eq_false_2. Qed.

(** The exception raised by the browser launch, whatever it is, leaves no
    mark on the run. *)
Lemma run_without_browser_fault (P : platform) (E : environment) :
  run P (with_fault at_webbrowser_open None E) = run P E.
Proof.
  pose proof (fault_with_fault_ne at_webbrowser_open) as Hfault.
  unfold_main.
  rewrite ?(Hfault at_chdir), ?(Hfault at_getcwd), ?(Hfault (at_print 26)),
    ?(Hfault (at_print 27)), ?(Hfault (at_print 30)), ?(Hfault (at_print 31)),
    ?(Hfault (at_print 32)), ?(Hfault (at_print 33)), ?(Hfault (at_print 34)),
    ?(Hfault (at_print 45)), ?(Hfault at_TCPServer),
    ?(Hfault at_serve_forever) by discriminate.
  cbn [fst snd script_file invocation_dir ports_in_use browser_opened
       with_fault].
  repeat next_call; simpl_process; cbn [files requests with_fault].
  all: reflexivity.
Qed.

(** C9, as the code has it: a [KeyboardInterrupt] that is the first
    exception of the startup, raised in the directory change, the bind or a
    banner print, ends the run uncaught, without the shutdown message and
    without serving; one raised inside the browser launch is swallowed by the
    bare [except] around it, silently: the run is the one it would have been
    without the interrupt, it goes on to serve, and a shutdown message is
    printed only if the serving loop is itself interrupted later. *)
Theorem C9_interrupt_during_startup (P : platform) (E : environment) :
  (∀ s, first_raise E startup_sites = Some (s, KeyboardInterrupt) →
     outcome P E = Raised KeyboardInterrupt ∧
     (Print stopped_message ∉ trace (final P E)) ∧
     (ServeForever ∉ trace (final P E))) ∧
  (startup_ok E → fault E at_webbrowser_open = Some KeyboardInterrupt →
     ServeForever ∈ trace (final P E) ∧
     (stopped_message ∈ printed (trace (final P E)) →
      fault E at_serve_forever = Some KeyboardInterrupt) ∧
     run P E = run P (with_fault at_webbrowser_open None E)).
Proof.
  pose proof (run_without_browser_fault P E) as Hrun.
  set (other := run P (with_fault at_webbrowser_open None E)) in *.
  revert Hrun. run_cases P E; intros Hrun.
  all: split;
    [intros s Hfirst; first_raise_in Hfirst; simplify_eq;
     (split; [done|]); split; intros Hin; solve [trace_mem]|].
  all: intros Hok Hbrowser; first_raise_in Hok; simplify_eq.
  all: split;
    [repeat first [apply list_elem_of_here | apply list_elem_of_further]|].
  all: split; [|by symmetry].
  all: cbn [printed]; rewrite ?printed_app, ?printed_responses.
  all: cbn [printed app]; intros Hmsg; try reflexivity.
  all: exfalso; trace_mem; discriminate.
Qed.

(** Decides a closed statement by evaluation. *)
Ltac by_evaluation := apply (bool_decide_unpack _); vm_compute; exact I.

Lemma C4_port_in_use_is_fatal_witness :
  PORT ∈ ports_in_use busy_port_env ∧
  outcome posix busy_port_env = Raised (OSError EADDRINUSE) ∧
  last (trace (final posix busy_port_env)) = Some (Bind EmptyString PORT).
Proof.
  assert (Hused : PORT ∈ ports_in_use busy_port_env) by by_evaluation.
  split; [exact Hused|].
  destruct (C4_port_in_use_is_fatal posix busy_port_env Hused)
    as (_ & Hbind & _).
  apply Hbind. vm_compute. reflexivity.
Defined.

Lemma C5_interrupt_while_serving_witness :
  outcome posix interrupted_serving_env = Returned tt ∧
  sock (final posix interrupted_serving_env) = Closed ∧
  [Print stopped_message; ServerClose]
    `suffix_of` trace (final posix interrupted_serving_env).
Proof.
  apply (C5_interrupt_while_serving posix interrupted_serving_env).
  - by_evaluation.
  - vm_compute. reflexivity.
  - vm_compute. reflexivity.
Defined.

Lemma C6_browser_failure_suppressed_witness :
  run posix no_browser_env = run posix example_env.
Proof.
  apply (C6_browser_failure_suppressed posix no_browser_env example_env).
  repeat split. intros s Hs. cbn.
  rewrite bool_decide_eq_false_2 by exact Hs. reflexivity.
Defined.

Lemma C7_serves_from_script_directory_witness :
  cwd (final posix example_env) = script_dir posix example_env ∧
  script_dir posix example_env = "/srv/app".
Proof.
  split; [|vm_compute; reflexivity].
  apply (C7_serves_from_script_directory posix example_env).
  by_evaluation.
Defined.

Lemma C8_fixed_port_all_interfaces_witness :
  Bind EmptyString 8000 ∈ trace (final posix example_env).
Proof.
  apply (C8_fixed_port_all_interfaces posix example_env).
  vm_compute. discriminate.
Defined.

Lemma C9_interrupt_during_startup_witness :
  outcome posix interrupted_banner_env = Raised KeyboardInterrupt ∧
  ServeForever ∈ trace (final posix interrupted_browser_env) ∧
  run posix interrupted_browser_env =
    run posix (with_fault at_webbrowser_open None interrupted_browser_env).
Proof.
  split.
  - apply (proj1 (C9_interrupt_during_startup posix interrupted_banner_env)
             (at_print 30)).
    vm_compute. reflexivity.
  - destruct (proj2 (C9_interrupt_during_startup posix
                       interrupted_browser_env)) as (Hserve & _ & Hsame).
    + vm_compute. reflexivity.
    + vm_compute. reflexivity.
    + split; [exact Hserve | exact Hsame].
Defined.

(** C9 as worded fails: with Ctrl+C arriving inside [webbrowser.open],
    before [serve_forever] is entered, the run does not end with an uncaught
    [KeyboardInterrupt]. *)
Lemma C9_interrupt_in_browser_launch_is_caught :
  ¬ interrupt_before_serving_uncaught posix interrupted_browser_env.
Proof.
  intros Hclaim.
  destruct (Hclaim at_webbrowser_open) as [Hout _].
  - vm_compute. reflexivity.
  - vm_compute in Hout. discriminate Hout.
Qed.

Lemma C10_browser_only_after_bind_witness :
  bind_fails busy_port_env ∧
  ∀ url, BrowserOpen url ∉ trace (final posix busy_port_env).
Proof.
  assert (Hfails : bind_fails busy_port_env)
    by (unfold bind_fails; vm_compute; discriminate).
  split; [exact Hfails|].
  apply (C10_browser_only_after_bind posix busy_port_env). exact Hfails.
Defined.

(** ** Further properties of runs of [main] *)

Lemma browser_attempts_app (t1 t2 : list event) :
  browser_attempts (t1 ++ t2) =
  (browser_attempts t1 + browser_attempts t2)%nat.
Proof.
  induction t1 as [|e t1 IH]; [done|]. destruct e; cbn; by rewrite ?IH.
Qed.

Lemma browser_attempts_responses P cls dir fs rs :
  browser_attempts (responses P cls dir fs rs) = 0%nat.
Proof. induction rs as [|r rs IH]; [done|]. apply IH. Qed.

(** Proves that the startup went through from the outcomes of its calls. *)
Ltac startup_went_through :=
  unfold startup_ok; cbn [first_raise startup_sites]; unfold raises;
  repeat match goal with
  | Hf : fault _ _ = _ |- _ => rewrite Hf
  | Hp : bool_decide (_ ∈ ports_in_use _) = _ |- _ => rewrite Hp
  end;
  reflexivity.

(** X1: an exception other than [KeyboardInterrupt] that ends the serving
    loop is not handled: it leaves [main] uncaught, the shutdown message is
    not printed, and the server is closed on the way out. *)
Theorem serve_forever_other_exception_propagates (P : platform)
    (E : environment) (e : exn) :
  ServeForever ∈ trace (final P E) →
  fault E at_serve_forever = Some e →
  e ≠ KeyboardInterrupt →
  outcome P E = Raised e ∧
  (stopped_message ∉ printed (trace (final P E))) ∧
  sock (final P E) = Closed ∧
  last (trace (final P E)) = Some ServerClose.
Proof.
  run_cases P E; intros Hin Hserve Hother; simplify_eq.
  all: try solve [trace_mem].
  all: split; [done|]; split; [|split; [done|]].
  all: try (rewrite !app_comm_cons; apply last_snoc).
  all: cbn [printed]; rewrite printed_app, printed_responses; cbn.
  all: intros Hmsg; trace_mem; discriminate.
Qed.


(** X3: [main] returns normally in exactly one situation: the startup went
    through, the serving loop was ended by a [KeyboardInterrupt], and the
    final print succeeded. *)
Theorem main_returns_iff_interrupted_while_serving (P : platform)
    (E : environment) :
  outcome P E = Returned tt ↔
  startup_ok E ∧
  fault E at_serve_forever = Some KeyboardInterrupt ∧
  fault E (at_print 45) = None.
Proof.
  run_cases P E.
  all: split;
    [intros Hout;
     first [discriminate Hout | split; [startup_went_through|by split]]
    |intros (Hok & Hserve & Hprint); first_raise_in Hok; by simplify_eq].
Qed.


(** X5: nothing guards the startup.  Whatever exception is the first to be
    raised by the directory change, a banner print, [getcwd] or the server
    constructor leaves [main] uncaught; the browser is not launched, the
    serving loop is not entered and no shutdown message is printed. *)
Theorem startup_exception_is_fatal (P : platform) (E : environment)
    (s : site) (e : exn) :
  first_raise E startup_sites = Some (s, e) →
  outcome P E = Raised e ∧
  (∀ url, BrowserOpen url ∉ trace (final P E)) ∧
  (ServeForever ∉ trace (final P E)) ∧
  (stopped_message ∉ printed (trace (final P E))).
Proof.
  run_cases P E; intros Hfirst; first_raise_in Hfirst; simplify_eq.
  all: split; [done|].
  all: split; [intros url Hin; solve [trace_mem]|].
  all: split; [intros Hin; solve [trace_mem]|].
  all: cbn [printed]; intros Hmsg; trace_mem; discriminate.
Qed.

(** X6: the shutdown message is printed in exactly the runs that end with
    [main] returning normally, and then it is the last line printed. *)
Theorem stopped_message_iff_main_returns (P : platform) (E : environment) :
  (stopped_message ∈ printed (trace (final P E)) ↔
   outcome P E = Returned tt) ∧
  (outcome P E = Returned tt →
   last (printed (trace (final P E))) = Some stopped_message).
Proof.
  run_cases P E.
  all: cbn [printed]; rewrite ?printed_app, ?printed_responses.
  all: cbn [printed app].
  all: split;
    [split;
       [intros Hmsg;
        first [reflexivity | exfalso; trace_mem; discriminate]
       |intros Hout;
        first
          [ discriminate Hout
          | repeat first [apply list_elem_of_here | apply list_elem_of_further]]]
    |intros Hout; first [discriminate Hout | reflexivity]].
Qed.

Lemma pretty_PORT : pretty PORT = "8000".
Proof. vm_compute. reflexivity. Qed.

Lemma localhost_text : localhost = "http://localhost:8000/".
Proof. vm_compute. reflexivity. Qed.

(** X7: the browser is launched at most once per run, always at the URL the
    banner advertises, [index.html] on the port the socket is bound to; a
    run that enters the serving loop does so right after the launch
    attempt. *)
Theorem browser_launched_once_before_serving (P : platform)
    (E : environment) :
  (∀ url, BrowserOpen url ∈ trace (final P E) →
     url = "http://localhost:8000/index.html") ∧
  (browser_attempts (trace (final P E)) ≤ 1)%nat ∧
  (ServeForever ∈ trace (final P E) →
     ∃ before after,
       trace (final P E) =
         (before ++
          BrowserOpen "http://localhost:8000/index.html" ::
          ServeForever :: after)%list ∧
       Bind EmptyString PORT ∈ before).
Proof.
  run_cases P E; rewrite ?localhost_text.
  all: split; [intros url Hin; solve [trace_mem; reflexivity]|].
  all: split;
    [cbn [browser_attempts];
     rewrite ?browser_attempts_app, ?browser_attempts_responses; cbn; lia|].
  all: intros Hin; try solve [trace_mem].
  all: eexists [_; _; _; _; _; _; _; _; _], _; split; [reflexivity|].
  all: repeat first [apply list_elem_of_here | apply list_elem_of_further].
Qed.

(** X8: the directory the process is started in has no influence beyond
    locating the entry file.  Two runs of the same entry file in the same
    surroundings end the same way, leave the socket in the same state and do
    the same things, banner included, whatever directories they were started
    in. *)
Theorem invocation_dir_is_irrelevant (P : platform) (E1 E2 : environment) :
  same_but_invocation_dir P E1 E2 →
  observable (run P E1) = observable (run P E2).
Proof.
  intros (Habs & Hfiles & Hports & Hreqs & Hopened & Hfault).
  unfold observable. unfold_main. cbn [cwd].
  rewrite ?Habs, ?Hports, ?Hopened, ?Hfault.
  cbn [fst snd]. repeat next_call; simpl_process.
  all: by rewrite ?Hfiles, ?Hreqs.
Qed.

(** X9: what [main] itself prints, by its [print] calls, is always an
    initial part of the seven banner lines followed by the shutdown message,
    in that order: [main] prints nothing else, repeats and skips no line, and
    its second line shows what [getcwd] returns once the working directory
    is the script's, not the directory the process was started in. *)
Theorem printed_is_prefix_of_banner (P : platform) (E : environment) :
  printed (trace (final P E))
    `prefix_of` (banner P E ++ [stopped_message])%list.
Proof.
  unfold banner, script_dir. run_cases P E.
  all: rewrite ?localhost_text, ?pretty_PORT.
  all: cbn [printed]; rewrite ?printed_app, ?printed_responses.
  all: cbn [printed app].
  all: repeat first [apply prefix_nil | apply prefix_cons_alt; [reflexivity|]].
  all: reflexivity.
Qed.

Lemma serve_forever_other_exception_propagates_witness :
  outcome posix failing_serve_env = Raised (OSError 24) ∧
  sock (final posix failing_serve_env) = Closed.
Proof.
  destruct (serve_forever_other_exception_propagates posix failing_serve_env
              (OSError 24)) as (Hout & _ & Hsock & _).
  - by_evaluation.
  - vm_compute. reflexivity.
  - discriminate.
  - split; [exact Hout | exact Hsock].
Defined.

Lemma startup_exception_is_fatal_witness :
  outcome posix missing_dir_env = Raised (OSError 2) ∧
  (∀ url, BrowserOpen url ∉ trace (final posix missing_dir_env)).
Proof.
  destruct (startup_exception_is_fatal posix missing_dir_env at_chdir
              (OSError 2)) as (Hout & Hbrowser & _).
  - vm_compute. reflexivity.
  - split; [exact Hout | exact Hbrowser].
Defined.

Lemma invocation_dir_is_irrelevant_witness :
  invocation_dir other_dir_env ≠ invocation_dir example_env ∧
  observable (run posix other_dir_env) = observable (run posix example_env).
Proof.
  split; [vm_compute; discriminate|].
  apply (invocation_dir_is_irrelevant posix other_dir_env example_env).
  repeat split.
Defined.
